(** * Bayesian inference on proportions: the credible-interval helper and the
      posterior comparison of the notebook "Bayesian Posterior Analysis:
      Proportions".

    The notebook is Python 3.  Its values are embedded as the inductive
    [pyobj]; exceptions are results of the error monad [result].  A Python
    float (and a NumPy float64) is modelled by the rational number it denotes,
    kept in lowest terms, and float arithmetic is exact: rounding, infinities
    and not-a-number operands are outside this model (the one not-a-number the
    notebook itself can produce, the mean of an empty array, is the
    constructor [NaN] of [float64]).  SciPy's Beta distribution is an external
    provider: its quantile function and its sampler are section variables. *)

From Stdlib Require Import ZArith QArith Qcanon Lqa Lia String List Bool.
From Stdlib Require Import Permutation.
Import ListNotations.

Local Open Scope Z_scope.

(** ** Python objects *)

Inductive pytype : Type :=
| ty_int
| ty_float
| ty_bool
| ty_str
| ty_NoneType.

Inductive pyobj : Type :=
| PyInt (z : Z)
| PyFloat (q : Q)
| PyBool (b : bool)
| PyStr (s : string)
| PyNone.

(** [type(x)] *)
Definition type (x : pyobj) : pytype :=
  match x with
  | PyInt _ => ty_int
  | PyFloat _ => ty_float
  | PyBool _ => ty_bool
  | PyStr _ => ty_str
  | PyNone => ty_NoneType
  end.

Definition type_name (t : pytype) : string :=
  match t with
  | ty_int => "int"
  | ty_float => "float"
  | ty_bool => "bool"
  | ty_str => "str"
  | ty_NoneType => "NoneType"
  end.

(** [t1 is t2] on type objects *)
Definition type_is (t1 t2 : pytype) : bool :=
  match t1, t2 with
  | ty_int, ty_int | ty_float, ty_float | ty_bool, ty_bool
  | ty_str, ty_str | ty_NoneType, ty_NoneType => true
  | _, _ => false
  end.

(** ** Exceptions and the error monad *)

Inductive exn_kind : Type :=
| TypeError
| ValueError
| ZeroDivisionError
| NameError
| UnboundLocalError.

Inductive result (A : Type) : Type :=
| Return (a : A)
| Raise (k : exn_kind) (msg : string).

Arguments Return {A} a.
Arguments Raise {A} k msg.

Definition bind {A B : Type} (c : result A) (f : A -> result B) : result B :=
  match c with
  | Return a => f a
  | Raise k msg => Raise k msg
  end.

Notation "x <- c ;; f" := (bind c (fun x => f))
  (at level 61, c at next level, right associativity).

(** [c1 or c2] on truth values: [c2] is evaluated only when [c1] is false. *)
Definition por (c1 c2 : result bool) : result bool :=
  b <- c1 ;; if b then Return true else c2.

Definition raises {A : Type} (c : result A) : Prop :=
  exists k msg, c = Raise k msg.


(** ** Numbers: [int], [bool] (a subclass of [int]) and [float] *)

Inductive num : Type :=
| NInt (z : Z)
| NFloat (q : Q).

Definition as_num (x : pyobj) : option num :=
  match x with
  | PyInt z => Some (NInt z)
  | PyBool b => Some (NInt (Z.b2z b))
  | PyFloat q => Some (NFloat q)
  | PyStr _ | PyNone => None
  end.

Definition num_val (n : num) : Q :=
  match n with
  | NInt z => inject_Z z
  | NFloat q => q
  end.

(** The float that denotes the rational [q]. *)
Definition fl (q : Q) : Q := Qred q.

Arguments fl : simpl never.

Definition Qlt_bool (x y : Q) : bool :=
  (Qnum x * QDen y <? Qnum y * QDen x)%Z.

(** ** Comparison operators *)

Inductive cmpop : Type :=
| Lt
| LtE
| Gt.

Definition cmpop_symbol (op : cmpop) : string :=
  match op with
  | Lt => "<"
  | LtE => "<="
  | Gt => ">"
  end.

Definition cmp_num (op : cmpop) (x y : Q) : bool :=
  match op with
  | Lt => Qlt_bool x y
  | LtE => Qle_bool x y
  | Gt => Qlt_bool y x
  end.

Definition cmp_str (op : cmpop) (s t : string) : bool :=
  match op with
  | Lt => String.ltb s t
  | LtE => String.leb s t
  | Gt => String.ltb t s
  end.

Definition quoted (s : string) : string := ("'" ++ s ++ "'")%string.

(** [x op y]: numbers compare by value, strings lexicographically, and every
    other pair of operands is a [TypeError]. *)
Definition py_compare (op : cmpop) (x y : pyobj) : result bool :=
  match as_num x, as_num y with
  | Some n, Some m => Return (cmp_num op (num_val n) (num_val m))
  | _, _ =>
      match x, y with
      | PyStr s, PyStr t => Return (cmp_str op s t)
      | _, _ =>
          Raise TypeError
            (quoted (cmpop_symbol op) ++ " not supported between instances of "
             ++ quoted (type_name (type x)) ++ " and "
             ++ quoted (type_name (type y)))%string
      end
  end.

(** ** Arithmetic operators *)

Definition unsupported (sym : string) (x y : pyobj) : string :=
  ("unsupported operand type(s) for " ++ sym ++ ": "
   ++ quoted (type_name (type x)) ++ " and "
   ++ quoted (type_name (type y)))%string.

(** [x + y] *)
Definition py_add (x y : pyobj) : result pyobj :=
  match as_num x, as_num y with
  | Some (NInt i), Some (NInt j) => Return (PyInt (i + j))
  | Some n, Some m => Return (PyFloat (fl (num_val n + num_val m)))
  | _, _ =>
      match x, y with
      | PyStr s, PyStr t => Return (PyStr (s ++ t))
      | PyStr _, _ =>
          Raise TypeError ("must be str, not " ++ type_name (type y))%string
      | _, _ => Raise TypeError (unsupported "+" x y)
      end
  end.

(** [x - y] *)
Definition py_sub (x y : pyobj) : result pyobj :=
  match as_num x, as_num y with
  | Some (NInt i), Some (NInt j) => Return (PyInt (i - j))
  | Some n, Some m => Return (PyFloat (fl (num_val n - num_val m)))
  | _, _ => Raise TypeError (unsupported "-" x y)
  end.

(** [x / y], Python 3's true division: the quotient is a float. *)
Definition py_truediv (x y : pyobj) : result pyobj :=
  match as_num x, as_num y with
  | Some n, Some m =>
      if Qeq_bool (num_val m) 0 then
        Raise ZeroDivisionError
          match n, m with
          | NInt _, NInt _ => "division by zero"
          | _, _ => "float division by zero"
          end
      else Return (PyFloat (fl (num_val n / num_val m)))
  | _, _ => Raise TypeError (unsupported "/" x y)
  end.

(** ** The credible interval *)

(** The value of a keyword parameter: the argument when the call gives one,
    the default otherwise. *)
Definition keyword_argument (given : option pyobj) (default : pyobj) : pyobj :=
  match given with
  | Some v => v
  | None => default
  end.

Section CredibleInterval.

(** [beta_ppf q a b]: the quantile function (inverse CDF) of the
    Beta(a, b) distribution, [scipy.stats.beta.ppf]. *)
Variable beta_ppf : Q -> Q -> Q -> Q.

(** [beta.ppf(q, a, b)]: SciPy converts its numeric arguments to floats.
    The function below calls it on numbers only; the error branch stands for
    SciPy's refusal of anything else. *)
Definition ppf (q a b : pyobj) : result Q :=
  match as_num q, as_num a, as_num b with
  | Some q', Some a', Some b' =>
      Return (beta_ppf (num_val q') (num_val a') (num_val b'))
  | _, _, _ => Raise TypeError "ufunc inputs could not be coerced to float"
  end.

Definition bernoulli_beta_credible_interval (M N a b C : pyobj)
  : result (Q * Q) :=
  (* Error checking *)
  if negb (type_is (type M) ty_int) || negb (type_is (type N) ty_int) then
    Raise TypeError "M, N must both be integers"
  else
  c1 <- por (py_compare Lt M (PyInt 0)) (py_compare Lt N M) ;;
  if c1 then Raise ValueError "M, N must be non-negative, and N >= M" else
  c2 <- por (py_compare LtE a (PyInt 0)) (py_compare LtE b (PyInt 0)) ;;
  if c2 then Raise ValueError "Cannot have negative prior parameters!" else
  if negb (type_is (type C) ty_float) then
    Raise TypeError "C must be numeric"
  else
  c3 <- por (py_compare Lt C (PyInt 0)) (py_compare Gt C (PyInt 1)) ;;
  if c3 then Raise ValueError "C must be interpretable as a probability" else
  (* post = (a + M, b + N - M) *)
  post0 <- py_add a M ;;
  bN <- py_add b N ;;
  post1 <- py_sub bN M ;;
  (* alpha = (1 - C)/2 *)
  one_minus_C <- py_sub (PyInt 1) C ;;
  alpha <- py_truediv one_minus_C (PyInt 2) ;;
  lower <- ppf alpha post0 post1 ;;
  one_minus_alpha <- py_sub (PyInt 1) alpha ;;
  upper <- ppf one_minus_alpha post0 post1 ;;
  Return (lower, upper).

(** The last three lines of the function on their own: the posterior
    parameters, the tail mass and the two quantile lookups. *)
Definition posterior_quantiles (M N a b C : pyobj) : result (Q * Q) :=
  post0 <- py_add a M ;;
  bN <- py_add b N ;;
  post1 <- py_sub bN M ;;
  one_minus_C <- py_sub (PyInt 1) C ;;
  alpha <- py_truediv one_minus_C (PyInt 2) ;;
  lower <- ppf alpha post0 post1 ;;
  one_minus_alpha <- py_sub (PyInt 1) alpha ;;
  upper <- ppf one_minus_alpha post0 post1 ;;
  Return (lower, upper).

(** A call site: [a], [b] and [C] are keyword parameters with the defaults
    [a=1], [b=1], [C=.95]. *)
Definition call_bernoulli_beta_credible_interval
  (M N : pyobj) (a b C : option pyobj) : result (Q * Q) :=
  bernoulli_beta_credible_interval M N
    (keyword_argument a (PyInt 1))
    (keyword_argument b (PyInt 1))
    (keyword_argument C (PyFloat (95 # 100))).

End CredibleInterval.




(** The error-checking block of [bernoulli_beta_credible_interval] on its
    own: [Return tt] when control reaches the line [post = ...]. *)
Definition error_checking (M N a b C : pyobj) : result unit :=
  if negb (type_is (type M) ty_int) || negb (type_is (type N) ty_int) then
    Raise TypeError "M, N must both be integers"
  else
  c1 <- por (py_compare Lt M (PyInt 0)) (py_compare Lt N M) ;;
  if c1 then Raise ValueError "M, N must be non-negative, and N >= M" else
  c2 <- por (py_compare LtE a (PyInt 0)) (py_compare LtE b (PyInt 0)) ;;
  if c2 then Raise ValueError "Cannot have negative prior parameters!" else
  if negb (type_is (type C) ty_float) then
    Raise TypeError "C must be numeric"
  else
  c3 <- por (py_compare Lt C (PyInt 0)) (py_compare Gt C (PyInt 1)) ;;
  if c3 then Raise ValueError "C must be interpretable as a probability" else
  Return tt.




(** The quantile function of the uniform distribution Beta(1, 1), used to run
    the definitions on concrete inputs. *)
Definition uniform_ppf (q a b : Q) : Q := q.

(** ** The posterior comparison *)

(** A NumPy float64 scalar; [NaN] is what the mean of an empty array is. *)
Inductive float64 : Type :=
| Finite (q : Q)
| NaN.

(** [A < B] on one-dimensional arrays: element by element, a one-element
    operand being broadcast against the other. *)
Definition np_less (A B : list Q) : result (list bool) :=
  if Nat.eqb (length A) (length B) then
    Return (map (fun p => Qlt_bool (fst p) (snd p)) (combine A B))
  else
    match A, B with
    | [x], _ => Return (map (fun y => Qlt_bool x y) B)
    | _, [y] => Return (map (fun x => Qlt_bool x y) A)
    | _, _ => Raise ValueError "operands could not be broadcast together"
    end.

(** [trial.sum()] on a boolean array *)
Definition np_sum (t : list bool) : Z :=
  fold_right (fun b acc => Z.b2z b + acc) 0 t.

(** [trial.mean()] on a boolean array *)
Definition np_mean (t : list bool) : float64 :=
  match t with
  | [] => NaN
  | _ :: _ =>
      Finite (fl (inject_Z (np_sum t) / inject_Z (Z.of_nat (length t))))
  end.

(** The number of indices [i < n] with [S_A[i] < S_B[i]], as the spec counts
    them. *)
Definition count_less (S_A S_B : list Q) (n : nat) : nat :=
  length
    (filter (fun i => Qlt_bool (nth i S_A 0%Q) (nth i S_B 0%Q)) (seq 0 n)).

(** The global names the comparison cells bind. *)
Record namespace : Type := mk_namespace {
  g_N : option Z;
  g_random_A : option (list Q);
  g_random_B : option (list Q);
  g_trial : option (list bool)
}.

Definition empty_namespace : namespace := mk_namespace None None None None.

(** The local names of a running call of [bernoulli_beta_credible_interval],
    its parameters apart. *)
Record frame : Type := mk_frame {
  l_post : option (pyobj * pyobj);
  l_alpha : option pyobj
}.

Definition new_frame : frame := mk_frame None None.

(** Code that runs over a state [S] and may raise. *)
Definition stateful (S A : Type) : Type := S -> result A * S.

Definition cret {S A : Type} (a : A) : stateful S A := fun s => (Return a, s).

Definition cbind {S A B : Type} (c : stateful S A) (f : A -> stateful S B)
  : stateful S B :=
  fun s =>
    match c s with
    | (Return a, s') => f a s'
    | (Raise e msg, s') => (Raise e msg, s')
    end.

Definition lift {S A : Type} (r : result A) : stateful S A := fun s => (r, s).

Notation "x <~ c ;; f" := (cbind c (fun x => f))
  (at level 61, c at next level, right associativity).
Notation "c ;;; f" := (cbind c (fun _ => f))
  (at level 61, right associativity).

Section Notebook.

(** The state of NumPy's global random generator. *)
Variable G : Type.

(** [beta.rvs(a, b, size=n)] from generator state [g]: the variates (or the
    provider's error) and the generator's next state. *)
Variable beta_rvs : Q -> Q -> Z -> G -> result (list Q) * G.

Variable beta_ppf : Q -> Q -> Q -> Q.

Record kernel : Type := mk_kernel {
  names : namespace;
  rng : G
}.

(** A notebook cell: a computation over the kernel's state that may raise. *)
Definition cell (A : Type) : Type := stateful kernel A.

Definition load {A : Type} (name : string) (field : namespace -> option A)
  : cell A :=
  fun k =>
    match field (names k) with
    | Some v => (Return v, k)
    | None =>
        (Raise NameError ("name " ++ quoted name ++ " is not defined")%string,
         k)
    end.

Definition store (upd : namespace -> namespace) : cell unit :=
  fun k => (Return tt, mk_kernel (upd (names k)) (rng k)).

Definition rvs (a b : Q) (n : Z) : cell (list Q) :=
  fun k =>
    let (r, g) := beta_rvs a b n (rng k) in (r, mk_kernel (names k) g).

(** [N = n; random_A = beta.rvs(aA, bA, size=N);
     random_B = beta.rvs(aB, bB, size=N)] *)
Definition draw_samples (n : Z) (pA pB : Q * Q) : cell unit :=
  store (fun ns =>
    mk_namespace (Some n) (g_random_A ns) (g_random_B ns) (g_trial ns)) ;;;
  size <~ load "N" g_N ;;
  sA <~ rvs (fst pA) (snd pA) size ;;
  store (fun ns =>
    mk_namespace (g_N ns) (Some sA) (g_random_B ns) (g_trial ns)) ;;;
  size <~ load "N" g_N ;;
  sB <~ rvs (fst pB) (snd pB) size ;;
  store (fun ns =>
    mk_namespace (g_N ns) (g_random_A ns) (Some sB) (g_trial ns)).

(** [trial = random_A < random_B; trial.sum()] *)
Definition count_trials : cell Z :=
  sA <~ load "random_A" g_random_A ;;
  sB <~ load "random_B" g_random_B ;;
  t <~ lift (np_less sA sB) ;;
  store (fun ns =>
    mk_namespace (g_N ns) (g_random_A ns) (g_random_B ns) (Some t)) ;;;
  cret (np_sum t).

(** [trial.mean()] *)
Definition mean_trials : cell float64 :=
  t <~ load "trial" g_trial ;;
  cret (np_mean t).

(** The comparison, cell after cell. *)
Definition compare_posteriors (pA pB : Q * Q) (n : Z) : cell float64 :=
  draw_samples n pA pB ;;;
  count_trials ;;;
  mean_trials.

(** The notebook's run: 1000 simulations of Beta(111, 411) against
    Beta(147, 369). *)
Definition notebook_comparison : cell float64 :=
  compare_posteriors (111 # 1, 411 # 1)%Q (147 # 1, 369 # 1)%Q 1000.

(** A running call of the function: the kernel's state and the call's own
    frame of local names. *)
Definition in_call (A : Type) : Type := stateful (kernel * frame) A.

Definition store_local (upd : frame -> frame) : in_call unit :=
  fun s => (Return tt, (fst s, upd (snd s))).

Definition load_local {A : Type} (name : string) (field : frame -> option A)
  : in_call A :=
  fun s =>
    match field (snd s) with
    | Some v => (Return v, s)
    | None =>
        (Raise UnboundLocalError
           ("local variable " ++ quoted name
            ++ " referenced before assignment")%string,
         s)
    end.

(** The body of [bernoulli_beta_credible_interval], statement by statement:
    [post] and [alpha] are assigned in the body, so they are names of the
    call's frame. *)
Definition run_bernoulli_beta_credible_interval (M N a b C : pyobj)
  : in_call (Q * Q) :=
  lift (error_checking M N a b C) ;;;
  (* post = (a + M, b + N - M) *)
  post0 <~ lift (py_add a M) ;;
  bN <~ lift (py_add b N) ;;
  post1 <~ lift (py_sub bN M) ;;
  store_local (fun f => mk_frame (Some (post0, post1)) (l_alpha f)) ;;;
  (* alpha = (1 - C)/2 *)
  one_minus_C <~ lift (py_sub (PyInt 1) C) ;;
  tail <~ lift (py_truediv one_minus_C (PyInt 2)) ;;
  store_local (fun f => mk_frame (l_post f) (Some tail)) ;;;
  (* return (beta.ppf(alpha, post[0], post[1]),
             beta.ppf(1 - alpha, post[0], post[1])) *)
  alpha <~ load_local "alpha" l_alpha ;;
  post <~ load_local "post" l_post ;;
  post' <~ load_local "post" l_post ;;
  lower <~ lift (ppf beta_ppf alpha (fst post) (snd post')) ;;
  alpha <~ load_local "alpha" l_alpha ;;
  one_minus_alpha <~ lift (py_sub (PyInt 1) alpha) ;;
  post <~ load_local "post" l_post ;;
  post' <~ load_local "post" l_post ;;
  upper <~ lift (ppf beta_ppf one_minus_alpha (fst post) (snd post')) ;;
  cret (lower, upper).

(** A cell that evaluates a call of the function: the body runs in a new
    frame, which is dropped when the call returns or raises. *)
Definition credible_interval_cell (M N : pyobj) (a b C : option pyobj)
  : cell (Q * Q) :=
  fun k =>
    let r :=
      run_bernoulli_beta_credible_interval M N
        (keyword_argument a (PyInt 1))
        (keyword_argument b (PyInt 1))
        (keyword_argument C (PyFloat (95 # 100)))
        (k, new_frame) in
    (fst r, fst (snd r)).

End Notebook.

(** A sampler to run the cells with: the generator state is the seed of a
    linear congruential generator, and each variate is a multiple of 1/8. *)
Fixpoint lcg_draws (n : nat) (g : Z) : list Q :=
  match n with
  | O => []
  | S n' => ((5 * g + 3) mod 8 # 8)%Q :: lcg_draws n' (g + 1)
  end.

Definition lcg_rvs (a b : Q) (n : Z) (g : Z) : result (list Q) * Z :=
  (Return (lcg_draws (Z.to_nat n) g), g + Z.max n 0).

(** A [BetaParameters] value with a component that is not strictly
    positive. *)
Definition non_positive_component (p : Q * Q) : Prop :=
  (fst p <= 0)%Q \/ (snd p <= 0)%Q.

(** ** The scatter plots of the nearest-neighbours notebook *)

(** A two-dimensional NumPy array of floats: [ncols] columns, and the rows,
    each of [ncols] entries. *)
Record ndarray2 : Type := mk_ndarray2 {
  ncols : nat;
  rows : list (list Q)
}.

(** What can go wrong in a plotting cell: a label that is not a key of
    [marker_map], an index or a boolean mask that does not fit its array, and
    a comparison of label arrays of different lengths (what NumPy answers
    there depends on its version; the cell is not followed further). *)
Inductive plot_error : Type :=
| KeyError (key : Z)
| IndexError
| ShapeMismatch.

Inductive plot_result (A : Type) : Type :=
| Done (a : A)
| Failed (e : plot_error).

Arguments Done {A} a.
Arguments Failed {A} e.

(** One call of [plt.scatter(x=..., y=..., marker=..., c=...)]. *)
Record point : Type := mk_point {
  pt_x : Q;
  pt_y : Q;
  pt_marker : string;
  pt_c : string
}.

(** A cell that draws: it extends the figure, the list of scatter calls so
    far, and may fail part of the way. *)
Definition plotting (A : Type) : Type := list point -> plot_result A * list point.

Definition pbind {A B : Type} (c : plotting A) (f : A -> plotting B)
  : plotting B :=
  fun fig =>
    match c fig with
    | (Done a, fig') => f a fig'
    | (Failed e, fig') => (Failed e, fig')
    end.

Definition pure_plot {A : Type} (r : plot_result A) : plotting A :=
  fun fig => (r, fig).

Notation "x <-- c ;; f" := (pbind c (fun x => f))
  (at level 61, c at next level, right associativity).

(** [X[:, j]] *)
Definition column (X : ndarray2) (j : nat) : plot_result (list Q) :=
  if (j <? ncols X)%nat then Done (map (fun r => nth j r 0%Q) (rows X))
  else Failed IndexError.

(** [x[mask]] for a boolean array [mask], which must be as long as [x]: the
    entries of [x] where the mask is true. *)
Definition take_mask {A : Type} (mask : list bool) (x : list A)
  : plot_result (list A) :=
  if Nat.eqb (length mask) (length x) then
    Done (map snd (filter fst (combine mask x)))
  else Failed IndexError.

(** [X[mask, j]] *)
Definition masked_column (X : ndarray2) (mask : list bool) (j : nat)
  : plot_result (list Q) :=
  match column X j with
  | Done c => take_mask mask c
  | Failed e => Failed e
  end.

(** [x == y] on label arrays, a one-element operand being broadcast. *)
Definition np_equal (x y : list Z) : plot_result (list bool) :=
  if Nat.eqb (length x) (length y) then
    Done (map (fun p => Z.eqb (fst p) (snd p)) (combine x y))
  else
    match x, y with
    | [u], _ => Done (map (fun v => Z.eqb u v) y)
    | _, [v] => Done (map (fun u => Z.eqb u v) x)
    | _, _ => Failed ShapeMismatch
    end.

Definition np_logical_not (mask : list bool) : list bool := map negb mask.

(** [zip(xs, ys, labels)]: as long as the shortest of the three. *)
Definition zip3 (xs ys : list Q) (labels : list Z) : list (Q * Q * Z) :=
  combine (combine xs ys) labels.

(** [marker_map = {0: 'o', 1: 's', 2: '^'}] *)
Definition marker_map : list (Z * string) :=
  [(0, "o"%string); (1, "s"%string); (2, "^"%string)].

(** [d[key]]; [None] stands for the [KeyError]. *)
Fixpoint dict_get {V : Type} (d : list (Z * V)) (key : Z) : option V :=
  match d with
  | [] => None
  | (k, v) :: d' => if Z.eqb k key then Some v else dict_get d' key
  end.

(** [for length, width, species in triples:
        plt.scatter(x=length, y=width, marker=marker_map[species], c=colour)] *)
Fixpoint scatter_loop (colour : string) (triples : list (Q * Q * Z))
  : plotting unit :=
  fun fig =>
    match triples with
    | [] => (Done tt, fig)
    | (length, width, species) :: rest =>
        match dict_get marker_map species with
        | Some m =>
            scatter_loop colour rest (fig ++ [mk_point length width m colour])
        | None => (Failed (KeyError species), fig)
        end
    end.

(** The plotting cell, for the pair of variables [var1], [var2]: the
    training data in black, the test data in blue where the prediction is
    right and in red where it is wrong. *)
Definition plot_predictions
  (var1 var2 : nat)
  (flower_train : ndarray2) (species_train : list Z)
  (flower_test : ndarray2) (species_test species_test_predict : list Z)
  : plotting unit :=
  xs <-- pure_plot (column flower_train var1) ;;
  ys <-- pure_plot (column flower_train var2) ;;
  _ <-- scatter_loop "black" (zip3 xs ys species_train) ;;
  correct <-- pure_plot (np_equal species_test species_test_predict) ;;
  xs <-- pure_plot (masked_column flower_test correct var1) ;;
  ys <-- pure_plot (masked_column flower_test correct var2) ;;
  labels <-- pure_plot (take_mask correct species_test) ;;
  _ <-- scatter_loop "blue" (zip3 xs ys labels) ;;
  xs <-- pure_plot (masked_column flower_test (np_logical_not correct) var1) ;;
  ys <-- pure_plot (masked_column flower_test (np_logical_not correct) var2) ;;
  labels <-- pure_plot (take_mask (np_logical_not correct) species_test) ;;
  scatter_loop "red" (zip3 xs ys labels).

(** The scatter call a data point would get with colour [c]; the marker of a
    label outside [marker_map] is left empty. *)
Definition plotted (c : string) (t : Q * Q * Z) : point :=
  mk_point (fst (fst t)) (snd (fst t))
    (match dict_get marker_map (snd t) with
     | Some m => m
     | None => ""%string
     end) c.

(** The test points with the colour their prediction earns them. *)
Definition test_points
  (var1 var2 : nat) (flower_test : ndarray2)
  (species_test species_test_predict : list Z) : list point :=
  map (fun q =>
         plotted (if Z.eqb (snd (fst q)) (snd q) then "blue" else "red")%string
           (fst q))
    (combine
       (zip3 (map (fun r => nth var1 r 0%Q) (rows flower_test))
             (map (fun r => nth var2 r 0%Q) (rows flower_test))
             species_test)
       species_test_predict).

(** Small arrays of iris measurements to run the plotting cell with. *)
Definition two_flowers : ndarray2 :=
  mk_ndarray2 4
    [[51 # 10; 35 # 10; 14 # 10; 2 # 10];
     [7 # 1; 32 # 10; 47 # 10; 14 # 10]]%Q.

Definition three_flowers : ndarray2 :=
  mk_ndarray2 4
    [[49 # 10; 3 # 1; 14 # 10; 2 # 10];
     [64 # 10; 32 # 10; 45 # 10; 15 # 10];
     [63 # 10; 33 # 10; 6 # 1; 25 # 10]]%Q.

(** * Properties *)

Example run_310_1126 :
  call_bernoulli_beta_credible_interval uniform_ppf
    (PyInt 310) (PyInt 1126) None None None = Return (1 # 40, 39 # 40)%Q.
Proof. vm_compute. reflexivity. Qed.

Example run_int_C :
  bernoulli_beta_credible_interval uniform_ppf
    (PyInt 3) (PyInt 5) (PyInt 1) (PyInt 1) (PyInt 1)
  = Raise TypeError "C must be numeric".
Proof. vm_compute. reflexivity. Qed.

Example run_comparison_4 :
  fst (compare_posteriors Z lcg_rvs (111 # 1, 411 # 1)%Q
         (147 # 1, 369 # 1)%Q 4 (mk_kernel Z empty_namespace 0))
  = Return (Finite (3 # 4)%Q).
Proof. vm_compute. reflexivity. Qed.

Example run_comparison_0 :
  fst (compare_posteriors Z lcg_rvs (111 # 1, 411 # 1)%Q
         (147 # 1, 369 # 1)%Q 0 (mk_kernel Z empty_namespace 0))
  = Return NaN.
Proof. vm_compute. reflexivity. Qed.

(** ** Rationals and floats *)



Lemma Qle_bool_false (x y : Q) : Qle_bool x y = false <-> (y < x)%Q.
Proof.
  rewrite <- not_true_iff_false, Qle_bool_iff.
  split; [apply Qnot_le_lt | apply Qlt_not_le].
Qed.

Lemma fl_correct (q : Q) : (fl q == q)%Q.
Proof. apply Qred_correct. Qed.



(** ** The three range checks on valid arguments *)

Lemma counts_check (m n : Z) :
  por (py_compare Lt (PyInt m) (PyInt 0)) (py_compare Lt (PyInt n) (PyInt m))
  = Return ((m <? 0) || (n <? m)).
Proof.
  unfold por, py_compare, cmp_num, Qlt_bool; simpl.
  rewrite !Z.mul_1_r. destruct (m <? 0); reflexivity.
Qed.

Lemma prior_check (x : pyobj) (n : num) :
  as_num x = Some n ->
  py_compare LtE x (PyInt 0) = Return (Qle_bool (num_val n) 0).
Proof.
  intros H. unfold py_compare. rewrite H. reflexivity.
Qed.









Lemma credible_interval_factors
  (beta_ppf : Q -> Q -> Q -> Q) (M N a b C : pyobj) :
  bernoulli_beta_credible_interval beta_ppf M N a b C
  = (_ <- error_checking M N a b C ;; posterior_quantiles beta_ppf M N a b C).
Proof.
  unfold bernoulli_beta_credible_interval, error_checking.
  destruct (negb (type_is (type M) ty_int) || negb (type_is (type N) ty_int));
    [reflexivity | ].
  destruct (por (py_compare Lt M (PyInt 0)) (py_compare Lt N M))
    as [[|] | ? ?]; cbn [bind]; try reflexivity.
  destruct (por (py_compare LtE a (PyInt 0)) (py_compare LtE b (PyInt 0)))
    as [[|] | ? ?]; cbn [bind]; try reflexivity.
  destruct (negb (type_is (type C) ty_float)); [reflexivity | ].
  destruct (por (py_compare Lt C (PyInt 0)) (py_compare Gt C (PyInt 1)))
    as [[|] | ? ?]; cbn [bind]; reflexivity.
Qed.

(** ** What the posterior parameters and the tail masses evaluate to *)









Section CredibleIntervalFacts.

Variable beta_ppf : Q -> Q -> Q -> Q.


(** What is assumed of the external quantile function in C2 and C5: on
    probabilities in [0, 1] and positive shape parameters it is monotone in
    the probability and takes its values in [0, 1]. *)
Hypothesis ppf_monotone :
  forall p q a b : Q,
    (0 <= p)%Q -> (p <= q)%Q -> (q <= 1)%Q -> (0 < a)%Q -> (0 < b)%Q ->
    (beta_ppf p a b <= beta_ppf q a b)%Q.

Hypothesis ppf_range :
  forall p a b : Q,
    (0 <= p <= 1)%Q -> (0 < a)%Q -> (0 < b)%Q ->
    (0 <= beta_ppf p a b <= 1)%Q.



End CredibleIntervalFacts.

(** ** The provider used on concrete inputs meets what C2 and C5 assume. *)






(** ** Rejected arguments *)





Lemma bad_first_prior_raise
  (beta_ppf : Q -> Q -> Q -> Q) (m n : Z) (a b C : pyobj) (na : num) :
  0 <= m <= n -> as_num a = Some na -> (num_val na <= 0)%Q ->
  bernoulli_beta_credible_interval beta_ppf (PyInt m) (PyInt n) a b C
  = Raise ValueError "Cannot have negative prior parameters!".
Proof.
  intros Hmn Ha Hle. unfold bernoulli_beta_credible_interval.
  cbn [type type_is negb orb]. rewrite counts_check.
  replace ((m <? 0) || (n <? m)) with false
    by (symmetry; apply orb_false_iff; split; apply Z.ltb_ge; lia).
  cbn [bind]. unfold por. rewrite (prior_check a na Ha). cbn [bind].
  apply Qle_bool_iff in Hle. change (inject_Z 0) with 0%Q.
  rewrite Hle. reflexivity.
Qed.









Section BoundaryAndDefaults.

Variable beta_ppf : Q -> Q -> Q -> Q.



End BoundaryAndDefaults.



(** ** The posterior comparison *)

Lemma np_less_same_length (A B : list Q) :
  length A = length B ->
  np_less A B
  = Return (map (fun p => Qlt_bool (fst p) (snd p)) (combine A B)).
Proof.
  intros H. unfold np_less. rewrite H, Nat.eqb_refl. reflexivity.
Qed.

Lemma filter_length_shift (f : nat -> bool) (l : list nat) :
  length (filter f (map S l)) = length (filter (fun i => f (S i)) l).
Proof.
  induction l as [ | i l IH]; simpl; [reflexivity | ].
  destruct (f (S i)); simpl; rewrite IH; reflexivity.
Qed.

Lemma count_less_cons (x y : Q) (A B : list Q) (n : nat) :
  count_less (x :: A) (y :: B) (S n)
  = ((if Qlt_bool x y then 1 else 0) + count_less A B n)%nat.
Proof.
  unfold count_less. rewrite <- cons_seq, <- seq_shift.
  cbn [filter nth]. rewrite <- (filter_length_shift
    (fun i => Qlt_bool (nth i (x :: A) 0%Q) (nth i (y :: B) 0%Q))).
  destruct (Qlt_bool x y); reflexivity.
Qed.

Lemma np_sum_counts (A B : list Q) :
  length A = length B ->
  np_sum (map (fun p => Qlt_bool (fst p) (snd p)) (combine A B))
  = Z.of_nat (count_less A B (length A)).
Proof.
  revert B. induction A as [ | x A IH]; intros [ | y B] H;
    try discriminate H; [reflexivity | ].
  injection H as H. cbn [combine map np_sum fold_right length fst snd].
  rewrite count_less_cons. fold (np_sum (map (fun p => Qlt_bool (fst p) (snd p))
                                           (combine A B))).
  rewrite (IH B H). destruct (Qlt_bool x y); cbn [Z.b2z]; lia.
Qed.

Lemma np_sum_bounds (t : list bool) : 0 <= np_sum t <= Z.of_nat (length t).
Proof.
  induction t as [ | b t IH]; cbn [np_sum fold_right length].
  - lia.
  - fold (np_sum t). destruct b; cbn [Z.b2z]; lia.
Qed.

Lemma np_mean_nonempty (t : list bool) :
  t <> [] ->
  np_mean t
  = Finite (fl (inject_Z (np_sum t) / inject_Z (Z.of_nat (length t)))).
Proof. destruct t; [congruence | reflexivity]. Qed.

Lemma fraction_bounds (s n : Z) :
  0 <= s <= n -> 1 <= n -> (0 <= fl (inject_Z s / inject_Z n) <= 1)%Q.
Proof.
  intros [H0 H1] Hn. rewrite fl_correct.
  assert (Hn' : (inject_Z 0 < inject_Z n)%Q) by (rewrite <- Zlt_Qlt; lia).
  change (inject_Z 0) with 0%Q in Hn'.
  split.
  - apply Qle_shift_div_l; [exact Hn' | ].
    rewrite Qmult_0_l. rewrite (Zle_Qle 0 s) in H0. exact H0.
  - apply Qle_shift_div_r; [exact Hn' | ].
    rewrite Qmult_1_l. rewrite (Zle_Qle s n) in H1. exact H1.
Qed.

Section Comparison.

Variable G : Type.
Variable beta_rvs : Q -> Q -> Z -> G -> result (list Q) * G.

(** The run of the comparison cells when both draws succeed. *)
Lemma compare_posteriors_run
  (pA pB : Q * Q) (n : Z) (k : kernel G) (S_A S_B : list Q) (g1 g2 : G) :
  beta_rvs (fst pA) (snd pA) n (rng G k) = (Return S_A, g1) ->
  beta_rvs (fst pB) (snd pB) n g1 = (Return S_B, g2) ->
  fst (compare_posteriors G beta_rvs pA pB n k)
  = (t <- np_less S_A S_B ;; Return (np_mean t)).
Proof.
  intros HA HB.
  unfold compare_posteriors, draw_samples, count_trials, mean_trials,
    cbind, store, load, rvs, lift, cret.
  cbn [names rng g_N g_random_A g_random_B g_trial].
  rewrite HA. cbn [names rng g_N g_random_A g_random_B g_trial].
  rewrite HB. cbn [names rng g_N g_random_A g_random_B g_trial].
  destruct (np_less S_A S_B) as [t | e msg]; reflexivity.
Qed.

(** C8: when the two draws give sequences [S_A] and [S_B] of the same length
    [num_samples >= 1], the comparison returns the number of indices [i] with
    [S_A[i] < S_B[i]] divided by [num_samples], a value in [0, 1]. *)
Theorem comparison_is_fraction_less
  (pA pB : Q * Q) (n : Z) (k : kernel G) (S_A S_B : list Q) (g1 g2 : G) :
  beta_rvs (fst pA) (snd pA) n (rng G k) = (Return S_A, g1) ->
  beta_rvs (fst pB) (snd pB) n g1 = (Return S_B, g2) ->
  Z.of_nat (length S_A) = n -> Z.of_nat (length S_B) = n -> 1 <= n ->
  exists p : Q,
    fst (compare_posteriors G beta_rvs pA pB n k) = Return (Finite p)
    /\ p = fl (inject_Z (Z.of_nat (count_less S_A S_B (Z.to_nat n)))
               / inject_Z n)
    /\ (0 <= p <= 1)%Q.
Proof.
  intros HA HB HlenA HlenB Hn.
  assert (Hlen : length S_A = length S_B) by lia.
  rewrite (compare_posteriors_run pA pB n k S_A S_B g1 g2 HA HB).
  rewrite (np_less_same_length S_A S_B Hlen). cbn [bind].
  set (t := map (fun p => Qlt_bool (fst p) (snd p)) (combine S_A S_B)).
  assert (Ht : length t = length S_A).
  { unfold t. rewrite length_map, length_combine. lia. }
  assert (Hne : t <> []).
  { intros E. rewrite E in Ht. simpl in Ht. lia. }
  rewrite (np_mean_nonempty t Hne).
  assert (Hsum : np_sum t = Z.of_nat (count_less S_A S_B (Z.to_nat n))).
  { unfold t. rewrite (np_sum_counts S_A S_B Hlen).
    replace (Z.to_nat n) with (length S_A) by lia. reflexivity. }
  pose proof (np_sum_bounds t) as Hb.
  eexists. split; [reflexivity | ].
  rewrite Ht, HlenA, <- Hsum. split; [reflexivity | ].
  apply fraction_bounds; lia.
Qed.

End Comparison.

Lemma comparison_is_fraction_less_witness :
  exists p : Q,
    fst (compare_posteriors Z lcg_rvs (111 # 1, 411 # 1)%Q (147 # 1, 369 # 1)%Q
           4 (mk_kernel Z empty_namespace 0)) = Return (Finite p)
    /\ p = fl (inject_Z (Z.of_nat
                 (count_less (lcg_draws 4 0) (lcg_draws 4 4) (Z.to_nat 4)))
               / inject_Z 4)
    /\ (0 <= p <= 1)%Q.
Proof.
  apply (comparison_is_fraction_less Z lcg_rvs
           (111 # 1, 411 # 1)%Q (147 # 1, 369 # 1)%Q 4
           (mk_kernel Z empty_namespace 0) (lcg_draws 4 0) (lcg_draws 4 4) 4 8).
  - reflexivity.
  - reflexivity.
  - reflexivity.
  - reflexivity.
  - lia.
Defined.

Section ComparisonErrors.

Variable G : Type.
Variable beta_rvs : Q -> Q -> Z -> G -> result (list Q) * G.

(** C9, as the code has it: the comparison cells check nothing themselves.
    The first thing they do with [num_samples] and the parameters is to draw;
    an error of the sampler is passed on, and whenever both draws return
    sequences of one length the comparison returns the mean of the
    element-wise comparison, which for empty sequences is not-a-number and
    not an error. *)
Theorem comparison_checks_nothing
  (pA pB : Q * Q) (n : Z) (k : kernel G) :
  (forall e msg g1,
      beta_rvs (fst pA) (snd pA) n (rng G k) = (Raise e msg, g1) ->
      fst (compare_posteriors G beta_rvs pA pB n k) = Raise e msg)
  /\ (forall S_A g1 e msg g2,
         beta_rvs (fst pA) (snd pA) n (rng G k) = (Return S_A, g1) ->
         beta_rvs (fst pB) (snd pB) n g1 = (Raise e msg, g2) ->
         fst (compare_posteriors G beta_rvs pA pB n k) = Raise e msg)
  /\ (forall S_A S_B g1 g2,
         beta_rvs (fst pA) (snd pA) n (rng G k) = (Return S_A, g1) ->
         beta_rvs (fst pB) (snd pB) n g1 = (Return S_B, g2) ->
         length S_A = length S_B ->
         fst (compare_posteriors G beta_rvs pA pB n k)
         = Return (np_mean (map (fun p => Qlt_bool (fst p) (snd p))
                              (combine S_A S_B))))
  /\ (forall g1 g2,
         beta_rvs (fst pA) (snd pA) n (rng G k) = (Return [], g1) ->
         beta_rvs (fst pB) (snd pB) n g1 = (Return [], g2) ->
         fst (compare_posteriors G beta_rvs pA pB n k) = Return NaN).
Proof.
  split; [ | split; [ | split]].
  - intros e msg g1 HA.
    unfold compare_posteriors, draw_samples, cbind, store, load, rvs.
    cbn [names rng g_N]. rewrite HA. reflexivity.
  - intros S_A g1 e msg g2 HA HB.
    unfold compare_posteriors, draw_samples, cbind, store, load, rvs.
    cbn [names rng g_N]. rewrite HA. cbn [names rng g_N].
    rewrite HB. reflexivity.
  - intros S_A S_B g1 g2 HA HB Hlen.
    rewrite (compare_posteriors_run G beta_rvs pA pB n k S_A S_B g1 g2 HA HB).
    rewrite (np_less_same_length S_A S_B Hlen). reflexivity.
  - intros g1 g2 HA HB.
    rewrite (compare_posteriors_run G beta_rvs pA pB n k [] [] g1 g2 HA HB).
    reflexivity.
Qed.

End ComparisonErrors.

Lemma comparison_checks_nothing_witness :
  fst (compare_posteriors Z lcg_rvs (111 # 1, 411 # 1)%Q (147 # 1, 369 # 1)%Q
         0 (mk_kernel Z empty_namespace 0)) = Return NaN.
Proof.
  apply (proj2 (proj2 (proj2
           (comparison_checks_nothing Z lcg_rvs
              (111 # 1, 411 # 1)%Q (147 # 1, 369 # 1)%Q 0
              (mk_kernel Z empty_namespace 0)))) 0 0).
  - reflexivity.
  - reflexivity.
Defined.

(** C9 as the spec states it fails: with [num_samples = 0] and a sampler that
    returns an empty sequence for size 0, as SciPy's does, the comparison
    returns not-a-number and raises nothing. *)
Lemma comparison_accepts_zero_samples :
  ~ (forall (G : Type) (beta_rvs : Q -> Q -> Z -> G -> result (list Q) * G)
            (pA pB : Q * Q) (n : Z) (k : kernel G),
        n < 1 \/ non_positive_component pA \/ non_positive_component pB ->
        raises (fst (compare_posteriors G beta_rvs pA pB n k))).
Proof.
  intros H.
  destruct (H Z lcg_rvs (111 # 1, 411 # 1)%Q (147 # 1, 369 # 1)%Q 0
              (mk_kernel Z empty_namespace 0)) as (e & msg & E).
  - left. lia.
  - vm_compute in E. discriminate E.
Qed.

Section Statelessness.

Variable G : Type.
Variable beta_ppf : Q -> Q -> Q -> Q.

(** The statement-by-statement run of the body computes what the function
    computes and gives the kernel's state back unchanged. *)
Lemma run_is_pure (M N a b C : pyobj) (k : kernel G) (f : frame) :
  fst (run_bernoulli_beta_credible_interval G beta_ppf M N a b C (k, f))
  = bernoulli_beta_credible_interval beta_ppf M N a b C
  /\ fst (snd (run_bernoulli_beta_credible_interval G beta_ppf M N a b C
                 (k, f))) = k.
Proof.
  rewrite credible_interval_factors.
  unfold run_bernoulli_beta_credible_interval, posterior_quantiles,
    cbind, lift, store_local, load_local, cret.
  destruct (error_checking M N a b C) as [[] | e msg];
    cbn [bind fst snd]; [ | split; reflexivity].
  destruct (py_add a M) as [post0 | e msg];
    cbn [bind fst snd]; [ | split; reflexivity].
  destruct (py_add b N) as [bN | e msg];
    cbn [bind fst snd]; [ | split; reflexivity].
  destruct (py_sub bN M) as [post1 | e msg];
    cbn [bind fst snd l_post l_alpha]; [ | split; reflexivity].
  destruct (py_sub (PyInt 1) C) as [one_minus_C | e msg];
    cbn [bind fst snd l_post l_alpha]; [ | split; reflexivity].
  destruct (py_truediv one_minus_C (PyInt 2)) as [alpha | e msg];
    cbn [bind fst snd l_post l_alpha]; [ | split; reflexivity].
  destruct (ppf beta_ppf alpha post0 post1) as [lower | e msg];
    cbn [bind fst snd l_post l_alpha]; [ | split; reflexivity].
  destruct (py_sub (PyInt 1) alpha) as [one_minus_alpha | e msg];
    cbn [bind fst snd l_post l_alpha]; [ | split; reflexivity].
  destruct (ppf beta_ppf one_minus_alpha post0 post1) as [upper | e msg];
    cbn [bind fst snd]; split; reflexivity.
Qed.

(** C7: a call of the function leaves the kernel's state (the global names
    and the random generator) as it found it, and its output does not depend
    on that state: two calls with the same arguments give the same output,
    whatever cell [other] runs between them. *)
Theorem credible_interval_deterministic_stateless
  (A : Type) (other : cell G A) (M N : pyobj) (a b C : option pyobj)
  (k : kernel G) :
  let first := credible_interval_cell G beta_ppf M N a b C k in
  let between := other (snd first) in
  let second := credible_interval_cell G beta_ppf M N a b C (snd between) in
  fst second = fst first
  /\ snd first = k
  /\ snd second = snd between
  /\ fst first = call_bernoulli_beta_credible_interval beta_ppf M N a b C.
Proof.
  cbv zeta. unfold credible_interval_cell, call_bernoulli_beta_credible_interval.
  cbn [fst snd].
  set (a' := keyword_argument a (PyInt 1)).
  set (b' := keyword_argument b (PyInt 1)).
  set (C' := keyword_argument C (PyFloat (95 # 100))).
  destruct (run_is_pure M N a' b' C' k new_frame) as [E1 E2].
  rewrite E1, E2.
  destruct (run_is_pure M N a' b' C' (snd (other k)) new_frame) as [E3 E4].
  rewrite E3, E4. repeat split; reflexivity.
Qed.

End Statelessness.

(** The notebook's own run, on the sampler above: both draws of 1000 start
    on the same residue of the generator, so no trial succeeds. *)
Example run_notebook_comparison :
  fst (notebook_comparison Z lcg_rvs (mk_kernel Z empty_namespace 0))
  = Return (Finite 0%Q).
Proof. vm_compute. reflexivity. Qed.

(** * Further properties of the credible interval *)






Lemma counts_pass (m n : Z) :
  0 <= m <= n -> ((m <? 0) || (n <? m)) = false.
Proof. intros H. apply orb_false_iff. split; apply Z.ltb_ge; lia. Qed.

Lemma not_a_number_compare (x : pyobj) :
  as_num x = None ->
  py_compare LtE x (PyInt 0)
  = Raise TypeError
      (quoted "<=" ++ " not supported between instances of "
       ++ quoted (type_name (type x)) ++ " and " ++ quoted "int")%string.
Proof. destruct x; simpl; intros H; try discriminate H; reflexivity. Qed.

(** X3: the check [a <= 0 or b <= 0] on valid counts.  A prior that is not a
    number makes the comparison itself raise a [TypeError]; the function has
    no message of its own for it.  The [or] stops at its first operand: when
    [a] is a number that is not positive the [ValueError] is raised and [b]
    is never looked at, whatever it is. *)
Theorem prior_check_order
  (beta_ppf : Q -> Q -> Q -> Q) (m n : Z) (a b C : pyobj) :
  0 <= m <= n ->
  (as_num a = None ->
   bernoulli_beta_credible_interval beta_ppf (PyInt m) (PyInt n) a b C
   = Raise TypeError
       (quoted "<=" ++ " not supported between instances of "
        ++ quoted (type_name (type a)) ++ " and " ++ quoted "int")%string)
  /\ (forall na, as_num a = Some na -> (num_val na <= 0)%Q ->
      bernoulli_beta_credible_interval beta_ppf (PyInt m) (PyInt n) a b C
      = Raise ValueError "Cannot have negative prior parameters!")
  /\ (forall na, as_num a = Some na -> (0 < num_val na)%Q ->
      as_num b = None ->
      bernoulli_beta_credible_interval beta_ppf (PyInt m) (PyInt n) a b C
      = Raise TypeError
          (quoted "<=" ++ " not supported between instances of "
           ++ quoted (type_name (type b)) ++ " and " ++ quoted "int")%string).
Proof.
  intros Hmn. split; [ | split].
  - intros Ha. unfold bernoulli_beta_credible_interval.
    cbn [type type_is negb orb]. rewrite counts_check, (counts_pass m n Hmn).
    cbn [bind]. unfold por. rewrite (not_a_number_compare a Ha). reflexivity.
  - intros na Ha Hle. apply (bad_first_prior_raise beta_ppf m n a b C na);
      assumption.
  - intros na Ha Hpos Hb. unfold bernoulli_beta_credible_interval.
    cbn [type type_is negb orb]. rewrite counts_check, (counts_pass m n Hmn).
    cbn [bind]. unfold por. rewrite (prior_check a na Ha). cbn [bind].
    apply Qle_bool_false in Hpos. change (inject_Z 0) with 0%Q.
    rewrite Hpos, (not_a_number_compare b Hb). reflexivity.
Qed.

Lemma prior_check_order_witness :
  (as_num (PyStr "3") = None ->
   bernoulli_beta_credible_interval uniform_ppf
     (PyInt 3) (PyInt 5) (PyStr "3") PyNone (PyFloat (95 # 100))
   = Raise TypeError "'<=' not supported between instances of 'str' and 'int'")
  /\ (forall na, as_num (PyStr "3") = Some na -> (num_val na <= 0)%Q ->
      bernoulli_beta_credible_interval uniform_ppf
        (PyInt 3) (PyInt 5) (PyStr "3") PyNone (PyFloat (95 # 100))
      = Raise ValueError "Cannot have negative prior parameters!")
  /\ (forall na, as_num (PyStr "3") = Some na -> (0 < num_val na)%Q ->
      as_num PyNone = None ->
      bernoulli_beta_credible_interval uniform_ppf
        (PyInt 3) (PyInt 5) (PyStr "3") PyNone (PyFloat (95 # 100))
      = Raise TypeError
          "'<=' not supported between instances of 'NoneType' and 'int'").
Proof.
  apply (prior_check_order uniform_ppf 3 5 (PyStr "3") PyNone
           (PyFloat (95 # 100))).
  lia.
Defined.















(** * Further properties of the comparison cells *)

Section ComparisonState.

Variable G : Type.
Variable beta_rvs : Q -> Q -> Z -> G -> result (list Q) * G.

(** X9: what a successful comparison leaves behind.  The kernel binds [N],
    [random_A], [random_B] and [trial], and the generator has gone through
    both draws.  The cells [trial = random_A < random_B; trial.sum()] and
    [trial.mean()] draw nothing, so running them again returns the same
    count (between 0 and the number of trials) and the same estimate, and
    changes nothing. *)
Theorem comparison_binds_and_reruns
  (pA pB : Q * Q) (n : Z) (k : kernel G) (S_A S_B : list Q) (g1 g2 : G) :
  beta_rvs (fst pA) (snd pA) n (rng G k) = (Return S_A, g1) ->
  beta_rvs (fst pB) (snd pB) n g1 = (Return S_B, g2) ->
  length S_A = length S_B ->
  let trial := map (fun p => Qlt_bool (fst p) (snd p)) (combine S_A S_B) in
  let k' := snd (compare_posteriors G beta_rvs pA pB n k) in
  k' = mk_kernel G (mk_namespace (Some n) (Some S_A) (Some S_B) (Some trial)) g2
  /\ count_trials G k' = (Return (np_sum trial), k')
  /\ 0 <= np_sum trial <= Z.of_nat (length S_A)
  /\ mean_trials G k' = (Return (np_mean trial), k')
  /\ fst (compare_posteriors G beta_rvs pA pB n k) = Return (np_mean trial).
Proof.
  intros HA HB Hlen trial k'.
  assert (Hk' : k' = mk_kernel G (mk_namespace (Some n) (Some S_A) (Some S_B)
                                    (Some trial)) g2).
  { subst k' trial.
    unfold compare_posteriors, draw_samples, count_trials, mean_trials,
      cbind, store, load, rvs, lift, cret.
    cbn [names rng g_N g_random_A g_random_B g_trial].
    rewrite HA. cbn [names rng g_N g_random_A g_random_B g_trial].
    rewrite HB. cbn [names rng g_N g_random_A g_random_B g_trial].
    rewrite (np_less_same_length S_A S_B Hlen). reflexivity. }
  split; [exact Hk' | ]. rewrite Hk'.
  split; [ | split; [ | split]].
  - unfold count_trials, cbind, store, load, lift, cret.
    cbn [names rng g_N g_random_A g_random_B g_trial].
    rewrite (np_less_same_length S_A S_B Hlen). reflexivity.
  - pose proof (np_sum_bounds trial) as Hb.
    replace (length trial) with (length S_A) in Hb; [exact Hb | ].
    subst trial. rewrite length_map, length_combine. lia.
  - reflexivity.
  - rewrite (compare_posteriors_run G beta_rvs pA pB n k S_A S_B g1 g2 HA HB).
    rewrite (np_less_same_length S_A S_B Hlen). reflexivity.
Qed.

(** X10: a failed draw leaves the names bound so far.  When the first draw
    raises, [N] is rebound but [random_A], [random_B] and [trial] keep their
    earlier values; when the second raises, [random_A] is new and [random_B]
    and [trial] are the earlier ones.  The generator is left where the
    failing draw left it. *)
Theorem failed_draw_keeps_earlier_names
  (pA pB : Q * Q) (n : Z) (k : kernel G) :
  (forall e msg g1,
      beta_rvs (fst pA) (snd pA) n (rng G k) = (Raise e msg, g1) ->
      compare_posteriors G beta_rvs pA pB n k
      = (Raise e msg,
         mk_kernel G
           (mk_namespace (Some n) (g_random_A (names G k))
              (g_random_B (names G k)) (g_trial (names G k))) g1))
  /\ (forall S_A g1 e msg g2,
         beta_rvs (fst pA) (snd pA) n (rng G k) = (Return S_A, g1) ->
         beta_rvs (fst pB) (snd pB) n g1 = (Raise e msg, g2) ->
         compare_posteriors G beta_rvs pA pB n k
         = (Raise e msg,
            mk_kernel G
              (mk_namespace (Some n) (Some S_A)
                 (g_random_B (names G k)) (g_trial (names G k))) g2)).
Proof.
  split.
  - intros e msg g1 HA.
    unfold compare_posteriors, draw_samples, cbind, store, load, rvs.
    cbn [names rng g_N g_random_A g_random_B g_trial].
    rewrite HA. reflexivity.
  - intros S_A g1 e msg g2 HA HB.
    unfold compare_posteriors, draw_samples, cbind, store, load, rvs.
    cbn [names rng g_N g_random_A g_random_B g_trial].
    rewrite HA. cbn [names rng g_N g_random_A g_random_B g_trial].
    rewrite HB. reflexivity.
Qed.

End ComparisonState.

Lemma comparison_binds_and_reruns_witness :
  let trial :=
    map (fun p => Qlt_bool (fst p) (snd p))
      (combine (lcg_draws 4 0) (lcg_draws 4 4)) in
  let k' :=
    snd (compare_posteriors Z lcg_rvs (111 # 1, 411 # 1)%Q (147 # 1, 369 # 1)%Q
           4 (mk_kernel Z empty_namespace 0)) in
  k' = mk_kernel Z
         (mk_namespace (Some 4) (Some (lcg_draws 4 0)) (Some (lcg_draws 4 4))
            (Some trial)) 8
  /\ count_trials Z k' = (Return (np_sum trial), k')
  /\ 0 <= np_sum trial <= Z.of_nat (length (lcg_draws 4 0))
  /\ mean_trials Z k' = (Return (np_mean trial), k')
  /\ fst (compare_posteriors Z lcg_rvs (111 # 1, 411 # 1)%Q (147 # 1, 369 # 1)%Q
            4 (mk_kernel Z empty_namespace 0)) = Return (np_mean trial).
Proof.
  refine (comparison_binds_and_reruns Z lcg_rvs
            (111 # 1, 411 # 1)%Q (147 # 1, 369 # 1)%Q 4
            (mk_kernel Z empty_namespace 0) (lcg_draws 4 0) (lcg_draws 4 4)
            4 8 _ _ _).
  - reflexivity.
  - reflexivity.
  - reflexivity.
Defined.

Lemma failed_draw_keeps_earlier_names_witness :
  compare_posteriors Z
    (fun a b n g => (Raise ValueError "Domain error in arguments.", g))
    (0 # 1, 411 # 1)%Q (147 # 1, 369 # 1)%Q 1000 (mk_kernel Z empty_namespace 0)
  = (Raise ValueError "Domain error in arguments.",
     mk_kernel Z (mk_namespace (Some 1000) None None None) 0).
Proof.
  refine (proj1 (failed_draw_keeps_earlier_names Z
                   (fun a b n g =>
                      (Raise ValueError "Domain error in arguments.", g))
                   (0 # 1, 411 # 1)%Q (147 # 1, 369 # 1)%Q 1000
                   (mk_kernel Z empty_namespace 0))
            ValueError "Domain error in arguments."%string 0 _).
  reflexivity.
Defined.

(** * The scatter plots of the nearest-neighbours notebook *)

Lemma marker_map_keys (s : Z) :
  0 <= s <= 2 <-> dict_get marker_map s <> None.
Proof.
  unfold marker_map, dict_get. split.
  - intros H. assert (E : s = 0 \/ s = 1 \/ s = 2) by lia.
    destruct E as [-> | [-> | ->]]; discriminate.
  - destruct (Z.eqb_spec 0 s); [lia | ].
    destruct (Z.eqb_spec 1 s); [lia | ].
    destruct (Z.eqb_spec 2 s); [lia | ].
    intros H. elim H. reflexivity.
Qed.

Lemma scatter_loop_draws_all (c : string) (triples : list (Q * Q * Z)) :
  Forall (fun t => 0 <= snd t <= 2) triples ->
  forall fig,
    scatter_loop c triples fig = (Done tt, fig ++ map (plotted c) triples).
Proof.
  induction 1 as [ | [[x y] s] rest Hs _ IH]; intros fig; cbn [scatter_loop map].
  - rewrite app_nil_r. reflexivity.
  - apply marker_map_keys in Hs. cbn [snd] in Hs.
    unfold plotted at 1. cbn [fst snd].
    destruct (dict_get marker_map s) as [m | ]; [ | congruence].
    rewrite IH, <- app_assoc. reflexivity.
Qed.

Lemma scatter_loop_stops (c : string) (pre post : list (Q * Q * Z))
  (x y : Q) (s : Z) :
  Forall (fun t => 0 <= snd t <= 2) pre ->
  ~ 0 <= s <= 2 ->
  forall fig,
    scatter_loop c (pre ++ (x, y, s) :: post) fig
    = (Failed (KeyError s), fig ++ map (plotted c) pre).
Proof.
  intros Hpre Hs.
  induction Hpre as [ | [[x' y'] s'] rest Hs' _ IH]; intros fig;
    cbn [app scatter_loop map].
  - rewrite app_nil_r.
    destruct (dict_get marker_map s) as [m | ] eqn:E; [ | reflexivity].
    elim Hs. apply marker_map_keys. congruence.
  - apply marker_map_keys in Hs'. cbn [snd] in Hs'.
    unfold plotted at 1. cbn [fst snd].
    destruct (dict_get marker_map s') as [m | ]; [ | congruence].
    rewrite IH, <- app_assoc. reflexivity.
Qed.

Lemma take_mask_zip3 (mask : list bool) (xs ys : list Q) (labels : list Z) :
  length mask = length xs -> length mask = length ys ->
  length mask = length labels ->
  zip3 (map snd (filter fst (combine mask xs)))
       (map snd (filter fst (combine mask ys)))
       (map snd (filter fst (combine mask labels)))
  = map snd (filter fst (combine mask (zip3 xs ys labels))).
Proof.
  revert xs ys labels.
  induction mask as [ | b mask IH]; intros [ | x xs] [ | y ys] [ | l labels];
    cbn [length]; intros H1 H2 H3; try discriminate; [reflexivity | ].
  injection H1 as H1. injection H2 as H2. injection H3 as H3.
  specialize (IH xs ys labels H1 H2 H3).
  unfold zip3 in *. cbn [combine filter].
  destruct b; cbn [fst map snd combine]; rewrite IH; reflexivity.
Qed.

Lemma zip3_length (xs ys : list Q) (labels : list Z) (n : nat) :
  length xs = n -> length ys = n -> length labels = n ->
  length (zip3 xs ys labels) = n.
Proof.
  intros H1 H2 H3. unfold zip3. rewrite !length_combine. lia.
Qed.

Lemma zip3_labels (xs ys : list Q) (labels : list Z) :
  Forall (fun s => 0 <= s <= 2) labels ->
  Forall (fun t => 0 <= snd t <= 2) (zip3 xs ys labels).
Proof.
  unfold zip3. intros H. revert xs ys.
  induction H as [ | s labels Hs _ IH]; intros xs ys.
  - rewrite combine_nil. constructor.
  - destruct xs as [ | x xs]; [constructor | ].
    destruct ys as [ | y ys]; [constructor | ].
    cbn [combine]. constructor; [exact Hs | apply IH].
Qed.

Lemma masked_labels {A : Type} (P : A -> Prop) (mask : list bool) (l : list A) :
  Forall P l -> Forall P (map snd (filter fst (combine mask l))).
Proof.
  intros H. revert mask.
  induction H as [ | a l Ha _ IH]; intros [ | b mask]; cbn [combine filter map];
    try constructor.
  destruct b; cbn [fst map snd]; [constructor; [exact Ha | apply IH] | apply IH].
Qed.

(** The blue and the red scatter calls together are the test points, each
    once. *)
Lemma blue_and_red_partition
  (triples : list (Q * Q * Z)) (predicted : list Z) :
  length predicted = length triples ->
  Permutation
    (map (plotted "blue")
       (map snd (filter fst
          (combine (map (fun p => Z.eqb (fst p) (snd p))
                      (combine (map snd triples) predicted)) triples)))
     ++ map (plotted "red")
          (map snd (filter fst
             (combine (np_logical_not
                         (map (fun p => Z.eqb (fst p) (snd p))
                            (combine (map snd triples) predicted))) triples))))
    (map (fun q =>
            plotted (if Z.eqb (snd (fst q)) (snd q) then "blue" else "red")%string
              (fst q))
       (combine triples predicted)).
Proof.
  revert predicted.
  induction triples as [ | [[x y] s] triples IH]; intros [ | p predicted] H;
    try discriminate H; [constructor | ].
  injection H as H. specialize (IH predicted H).
  unfold np_logical_not in *.
  cbn [map combine filter fst snd].
  destruct (Z.eqb s p); cbn [negb fst snd map filter app].
  - constructor. exact IH.
  - apply Permutation_sym, Permutation_cons_app, Permutation_sym. exact IH.
Qed.

Lemma column_in_range (X : ndarray2) (j : nat) :
  (j < ncols X)%nat ->
  column X j = Done (map (fun r => nth j r 0%Q) (rows X)).
Proof.
  intros H. unfold column. apply Nat.ltb_lt in H. rewrite H. reflexivity.
Qed.

Lemma take_mask_fits {A : Type} (mask : list bool) (x : list A) :
  length mask = length x ->
  take_mask mask x = Done (map snd (filter fst (combine mask x))).
Proof.
  intros H. unfold take_mask. rewrite H, Nat.eqb_refl. reflexivity.
Qed.

Lemma np_equal_same_length (x y : list Z) :
  length x = length y ->
  np_equal x y = Done (map (fun p => Z.eqb (fst p) (snd p)) (combine x y)).
Proof.
  intros H. unfold np_equal. rewrite H, Nat.eqb_refl. reflexivity.
Qed.

Lemma zip3_labels_are (xs ys : list Q) (labels : list Z) :
  length xs = length labels -> length ys = length labels ->
  map snd (zip3 xs ys labels) = labels.
Proof.
  unfold zip3. revert xs ys.
  induction labels as [ | s labels IH]; intros [ | x xs] [ | y ys] H1 H2;
    try discriminate; [reflexivity | ].
  injection H1 as H1. injection H2 as H2.
  cbn [combine map snd]. rewrite IH by assumption. reflexivity.
Qed.

(** X11: on data the cell is meant for (both variables are columns of the
    two arrays, every label is a key of [marker_map], and the test array, its
    labels and the predictions have one entry per test flower) the cell
    raises nothing.  It draws every training point in black and then every
    test point exactly once: in blue where the predicted label is the true
    one, in red where it is not. *)
Theorem test_points_are_plotted_once
  (var1 var2 : nat)
  (flower_train : ndarray2) (species_train : list Z)
  (flower_test : ndarray2) (species_test species_test_predict : list Z)
  (fig : list point) :
  (var1 < ncols flower_train)%nat -> (var2 < ncols flower_train)%nat ->
  (var1 < ncols flower_test)%nat -> (var2 < ncols flower_test)%nat ->
  Forall (fun s => 0 <= s <= 2) species_train ->
  Forall (fun s => 0 <= s <= 2) species_test ->
  length (rows flower_test) = length species_test ->
  length species_test_predict = length species_test ->
  exists blue red : list point,
    plot_predictions var1 var2 flower_train species_train
      flower_test species_test species_test_predict fig
    = (Done tt,
       fig
       ++ map (plotted "black")
            (zip3 (map (fun r => nth var1 r 0%Q) (rows flower_train))
                  (map (fun r => nth var2 r 0%Q) (rows flower_train))
                  species_train)
       ++ blue ++ red)
    /\ Forall (fun p => pt_c p = "blue"%string) blue
    /\ Forall (fun p => pt_c p = "red"%string) red
    /\ Permutation (blue ++ red)
         (test_points var1 var2 flower_test species_test species_test_predict).
Proof.
  intros Hv1 Hv2 Hw1 Hw2 Htrain Htest Hrows Hpred.
  set (xs := map (fun r => nth var1 r 0%Q) (rows flower_test)).
  set (ys := map (fun r => nth var2 r 0%Q) (rows flower_test)).
  set (correct := map (fun p => Z.eqb (fst p) (snd p))
                    (combine species_test species_test_predict)).
  assert (Hxs : length xs = length species_test)
    by (unfold xs; rewrite length_map; exact Hrows).
  assert (Hys : length ys = length species_test)
    by (unfold ys; rewrite length_map; exact Hrows).
  assert (Hc : length correct = length species_test).
  { unfold correct. rewrite length_map, length_combine. lia. }
  assert (Hn : length (np_logical_not correct) = length species_test).
  { unfold np_logical_not. rewrite length_map. exact Hc. }
  set (triples := zip3 xs ys species_test).
  exists (map (plotted "blue") (map snd (filter fst (combine correct triples)))),
    (map (plotted "red")
       (map snd (filter fst (combine (np_logical_not correct) triples)))).
  split; [ | split; [ | split]].
  - unfold plot_predictions, pbind, pure_plot, masked_column.
    rewrite (column_in_range flower_train var1 Hv1),
      (column_in_range flower_train var2 Hv2).
    rewrite (scatter_loop_draws_all "black" _ (zip3_labels _ _ _ Htrain)).
    rewrite (np_equal_same_length species_test species_test_predict)
      by (symmetry; exact Hpred).
    fold correct.
    rewrite (column_in_range flower_test var1 Hw1),
      (column_in_range flower_test var2 Hw2).
    fold xs ys.
    rewrite !(take_mask_fits correct) by congruence.
    rewrite (take_mask_zip3 correct xs ys species_test) by congruence.
    fold triples.
    rewrite (scatter_loop_draws_all "blue")
      by (apply masked_labels, zip3_labels, Htest).
    rewrite !(take_mask_fits (np_logical_not correct)) by congruence.
    rewrite (take_mask_zip3 (np_logical_not correct) xs ys species_test)
      by congruence.
    fold triples.
    rewrite (scatter_loop_draws_all "red")
      by (apply masked_labels, zip3_labels, Htest).
    rewrite <- !app_assoc. reflexivity.
  - apply Forall_forall. intros p Hp. apply in_map_iff in Hp.
    destruct Hp as (t & <- & _). reflexivity.
  - apply Forall_forall. intros p Hp. apply in_map_iff in Hp.
    destruct Hp as (t & <- & _). reflexivity.
  - unfold test_points. fold xs ys triples.
    replace correct
      with (map (fun p => Z.eqb (fst p) (snd p))
              (combine (map snd triples) species_test_predict))
      by (unfold triples; rewrite (zip3_labels_are xs ys species_test Hxs Hys);
          reflexivity).
    apply blue_and_red_partition.
    unfold triples. rewrite (zip3_length xs ys species_test _ Hxs Hys eq_refl).
    exact Hpred.
Qed.

Lemma test_points_are_plotted_once_witness :
  exists blue red : list point,
    plot_predictions 0 1 two_flowers [0; 1] three_flowers [0; 1; 2] [0; 2; 2] []
    = (Done tt,
       []
       ++ map (plotted "black")
            (zip3 (map (fun r => nth 0 r 0%Q) (rows two_flowers))
                  (map (fun r => nth 1 r 0%Q) (rows two_flowers))
                  [0; 1])
       ++ blue ++ red)
    /\ Forall (fun p => pt_c p = "blue"%string) blue
    /\ Forall (fun p => pt_c p = "red"%string) red
    /\ Permutation (blue ++ red)
         (test_points 0 1 three_flowers [0; 1; 2] [0; 2; 2]).
Proof.
  apply (test_points_are_plotted_once 0 1 two_flowers [0; 1]
           three_flowers [0; 1; 2] [0; 2; 2] []).
  - cbn. lia.
  - cbn. lia.
  - cbn. lia.
  - cbn. lia.
  - repeat constructor; lia.
  - repeat constructor; lia.
  - reflexivity.
  - reflexivity.
Defined.

(** X12: a training label that is not a key of [marker_map] stops the cell
    with [KeyError] of that label.  The training points zipped before it are
    on the figure, in black; nothing else is drawn, no test point in
    particular. *)
Theorem unknown_label_stops_the_plot
  (var1 var2 : nat)
  (flower_train : ndarray2) (species_train : list Z)
  (flower_test : ndarray2) (species_test species_test_predict : list Z)
  (fig : list point) (pre post : list (Q * Q * Z)) (x y : Q) (s : Z) :
  (var1 < ncols flower_train)%nat -> (var2 < ncols flower_train)%nat ->
  zip3 (map (fun r => nth var1 r 0%Q) (rows flower_train))
       (map (fun r => nth var2 r 0%Q) (rows flower_train))
       species_train
  = pre ++ (x, y, s) :: post ->
  Forall (fun t => 0 <= snd t <= 2) pre ->
  ~ 0 <= s <= 2 ->
  plot_predictions var1 var2 flower_train species_train
    flower_test species_test species_test_predict fig
  = (Failed (KeyError s), fig ++ map (plotted "black") pre).
Proof.
  intros Hv1 Hv2 Hzip Hpre Hs.
  unfold plot_predictions, pbind, pure_plot.
  rewrite (column_in_range flower_train var1 Hv1),
    (column_in_range flower_train var2 Hv2).
  rewrite Hzip, (scatter_loop_stops "black" pre post x y s Hpre Hs).
  reflexivity.
Qed.

Lemma unknown_label_stops_the_plot_witness :
  plot_predictions 2 3 two_flowers [1; 3] three_flowers [0; 1; 2] [0; 2; 2] []
  = (Failed (KeyError 3),
     [] ++ map (plotted "black") [((14 # 10)%Q, (2 # 10)%Q, 1)]).
Proof.
  apply (unknown_label_stops_the_plot 2 3 two_flowers [1; 3]
           three_flowers [0; 1; 2] [0; 2; 2] []
           [((14 # 10)%Q, (2 # 10)%Q, 1)] [] (47 # 10) (14 # 10) 3).
  - cbn. lia.
  - cbn. lia.
  - reflexivity.
  - repeat constructor; cbn; lia.
  - lia.
Defined.
